(** * EditProduct: the product edit form of the admin panel

  A shallow embedding of [src/components/admin/edit-product.tsx]: the
  component's state cells, its two event handlers ([uploadImage],
  [handleSubmit]) and the promise continuations they register, followed by
  the properties of the submission / error-recovery protocol. *)

From Stdlib Require Import String ZArith List Bool Lia.
From Stdlib Require Import DecimalString.
Import ListNotations.
Open Scope string_scope.
Set Warnings "-register-all".

(** ** Types imported by the component *)

(** Modelled from the spec: the types of [@/lib/schema] ([productSchema],
  [Category]), which the component imports and which are not among the
  sources.  The spec's data model names the fields of a product and says
  that variants are opaque; the field types are taken as parameters, with
  the two operations the component applies to them. *)
Class Schema := {
  Id : Type;                             (* type of [product.id] *)
  Number : Type;                         (* JavaScript numbers *)
  CategoryId : Type;                     (* type of [category.id] *)
  Variants : Type;                       (* type of [product.variants] *)
  Category : Type;                       (* the [Category] type *)
  File : Type;                           (* DOM [File] objects *)
  Category_id : Category -> CategoryId;  (* [category.id] *)
  Id_toString : Id -> string;            (* [product.id] in a template literal *)
}.

Module Product.
Section Def.
Context {schema : Schema}.

(** [z.infer<typeof productSchema>] *)
Record t := mk {
  id : Id;
  image : string;
  name : string;
  price : Number;
  stock : Number;
  categoryId : CategoryId;
  variants : Variants;
}.

(** [{ ...prev, name: v }] *)
Definition with_name (v : string) (prev : t) : t :=
  mk (id prev) (image prev) v (price prev) (stock prev) (categoryId prev) (variants prev).

(** The object after the assignment [p.image = v]. *)
Definition with_image (v : string) (p : t) : t :=
  mk (id p) v (name p) (price p) (stock p) (categoryId p) (variants p).
End Def.
End Product.

(** ** JavaScript values *)

Section JS.
Context {schema : Schema}.

(** Dynamically typed data: response bodies, and the [formErrors] cell,
    which receives a response body unchecked.  An object is the list of its
    own properties in enumeration order. *)
Inductive JSValue :=
| JUndefined
| JNull
| JBoolean (b : bool)
| JNumber (n : Number)
| JString (s : string)
| JArray (items : list JSValue)
| JObject (props : list (string * JSValue)).

Inductive JSError := TypeError.

(** Result of evaluating an expression that may throw. *)
Inductive outcome (A : Type) :=
| Ok (a : A)
| Raise (e : JSError).
Global Arguments Ok {A} a.
Global Arguments Raise {A} e.

Definition obind {A B} (o : outcome A) (k : A -> outcome B) : outcome B :=
  match o with
  | Ok a => k a
  | Raise e => Raise e
  end.

(** Own property [k] of an object. *)
Fixpoint own (k : string) (props : list (string * JSValue)) : option JSValue :=
  match props with
  | [] => None
  | (k', v) :: rest => if String.eqb k k' then Some v else own k rest
  end.

(** [{ ...props, k: v }]: an existing property keeps its place and takes
    the new value, a new one goes last. *)
Fixpoint put (k : string) (v : JSValue) (props : list (string * JSValue))
  : list (string * JSValue) :=
  match props with
  | [] => [(k, v)]
  | (k', v') :: rest =>
      if String.eqb k k' then (k, v) :: rest else (k', v') :: put k v rest
  end.

Definition index_key (i : nat) : string :=
  NilEmpty.string_of_uint (Nat.to_uint i).

Fixpoint indexed {A} (f : A -> JSValue) (i : nat) (xs : list A)
  : list (string * JSValue) :=
  match xs with
  | [] => []
  | x :: rest => (index_key i, f x) :: indexed f (S i) rest
  end.

Definition chars (s : string) : list string :=
  map (fun c => String c EmptyString) (list_ascii_of_string s).

(** The properties copied by [...v] in an object literal: the own
    properties of an object, the elements of an array and the characters
    of a string under their indices, nothing for any other value
    ([undefined] and [null] included). *)
Definition spread (v : JSValue) : list (string * JSValue) :=
  match v with
  | JObject props => props
  | JArray items => indexed (fun x => x) 0 items
  | JString s => indexed JString 0 (chars s)
  | _ => []
  end.

(** [v.error].  Reading a property of [undefined] or [null] throws a
    TypeError; on an object it is the own property or [undefined]; no
    array, string, number or boolean has a property of this name. *)
Definition dot_error (v : JSValue) : outcome JSValue :=
  match v with
  | JUndefined | JNull => Raise TypeError
  | JObject props =>
      Ok (match own "error" props with Some x => x | None => JUndefined end)
  | _ => Ok JUndefined
  end.

(** [z.string().safeParse(v)]: succeeds on strings only. *)
Definition zod_string (v : JSValue) : option string :=
  match v with
  | JString s => Some s
  | _ => None
  end.

(** [z.object({ image: z.string() }).safeParse(v)], projected on
    [.data.image]: succeeds on a (non-array, non-null) object whose
    [image] property is a string; other properties are ignored. *)
Definition zod_object_image (v : JSValue) : option string :=
  match v with
  | JObject props =>
      match own "image" props with
      | Some x => zod_string x
      | None => None
      end
  | _ => None
  end.

(** A template literal prints an unset environment variable as
    ["undefined"]. *)
Definition template_env (v : option string) : string :=
  match v with
  | Some s => s
  | None => "undefined"
  end.
End JS.

(** ** Requests and responses (axios) *)

Module PatchData.
Section Def.
Context {schema : Schema}.

(** The [data] object of the PATCH request.  [categoryId] is
    [category?.id], which is [undefined] when no category is supplied. *)
Record t := mk {
  id : Id;
  image : string;
  name : string;
  price : Number;
  stock : Number;
  categoryId : option CategoryId;
  variants : Variants;
}.
End Def.
End PatchData.

Module Options.
Section Def.
Context {schema : Schema}.

Inductive body :=
| FormData (entries : list (string * option File))
| Plain (d : PatchData.t).

(** The [options] object handed to [axios.request]; [headers] is empty
    when the object has no such property. *)
Record t := mk {
  method : string;
  url : string;
  headers : list (string * string);
  data : body;
}.
End Def.
End Options.

Section Axios.
Context {schema : Schema}.

Record Response := mkResponse {
  status : Z;
  data : JSValue;
}.

(** The reason a request promise is rejected with; [response] is
    [undefined] when no response was received. *)
Record AxiosError := mkAxiosError {
  response : option Response;
}.

Inductive Settlement :=
| Fulfilled (res : Response)
| Rejected (err : AxiosError).

(** How [axios.request] settles with its default [validateStatus]: a
    response with a status in [200, 300) fulfils the promise, any other
    response and a network failure ([None]) reject it. *)
Definition axios_settle (net : option Response) : Settlement :=
  match net with
  | None => Rejected (mkAxiosError None)
  | Some r =>
      if (200 <=? status r)%Z && (status r <? 300)%Z
      then Fulfilled r
      else Rejected (mkAxiosError (Some r))
  end.
End Axios.

(** ** Component state *)

Section Component.
Context {schema : Schema}.

(** Product objects live in a store and are held by reference: the
    [product] prop, the [currentProduct] cell and the closures of the
    handlers may all refer to one object. *)
Definition loc := nat.

Record Props := mkProps {
  product : loc;
  category : option Category;
}.

(** The [useState] cells. *)
Record Session := mkSession {
  success : string;
  formErrors : JSValue;
  error : string;
  open : bool;
  openErr : bool;
  image : string;
  currentProduct : loc;
}.

(** What a handler created by one render sees: the props and the values
    of the state cells of that render. *)
Record Render := mkRender {
  props : Props;
  state : Session;
}.

(** What the component does to the outside. *)
Inductive Effect :=
| AxiosRequest (options : Options.t)
| OnUpdate (args : list JSValue)
| ConsoleLog (v : JSValue).

Record World := mkWorld {
  session : Session;
  heap : loc -> Product.t;
  next : loc;
  trace : list Effect;
}.

Definition defaultErrors : JSValue :=
  JObject [ ("id", JArray [JString ""]);
            ("image", JArray [JString ""]);
            ("name", JArray [JString ""]);
            ("price", JArray [JString ""]);
            ("stock", JArray [JString ""]);
            ("categoryId", JArray [JString ""]);
            ("variants", JArray [JString ""]) ].

(** [{ ...defaultErrors, image: ["Image can not be empty"] }] *)
Definition image_required : JSValue :=
  JObject (put "image" (JArray [JString "Image can not be empty"])
               (spread defaultErrors)).

(** The state of the first render: every [useState] initial value.
    [currentProduct] starts as the very object passed as [product]. *)
Definition mount (p : Props) (h : loc -> Product.t) : Session :=
  {| success := "";
     formErrors := defaultErrors;
     error := "";
     open := false;
     openErr := false;
     image := Product.image (h (product p));
     currentProduct := product p |}.

(** ** Handlers *)

(** A handler runs on the world and either returns or throws; what it did
    before throwing stays done. *)
Inductive result (A : Type) :=
| Return (a : A) (w : World)
| Throw (e : JSError) (w : World).
Arguments Return {A} a w.
Arguments Throw {A} e w.

Definition Handler (A : Type) := World -> result A.

Definition ret {A} (a : A) : Handler A := fun w => Return a w.

Definition bind {A B} (m : Handler A) (k : A -> Handler B) : Handler B :=
  fun w =>
    match m w with
    | Return a w' => k a w'
    | Throw e w' => Throw e w'
    end.

Definition eval {A} (o : outcome A) : Handler A :=
  fun w =>
    match o with
    | Ok a => Return a w
    | Raise e => Throw e w
    end.

Definition world_of {A} (r : result A) : World :=
  match r with
  | Return _ w => w
  | Throw _ w => w
  end.

Definition throws {A} (r : result A) : bool :=
  match r with
  | Return _ _ => false
  | Throw _ _ => true
  end.
End Component.

Arguments Return {schema A} a w.
Arguments Throw {schema A} e w.

Declare Scope handler_scope.
Delimit Scope handler_scope with handler.
Notation "x <- m ;; k" := (bind m (fun x => k))
  (at level 61, m at next level, right associativity) : handler_scope.
Notation "m ;; k" := (bind m (fun _ => k))
  (at level 61, right associativity) : handler_scope.
Notation "x <~ o ;; k" := (obind o (fun x => k))
  (at level 61, o at next level, right associativity) : handler_scope.

Section Handlers.
Context {schema : Schema}.
Local Open Scope handler_scope.

(** *** State setters

    React queues the updates a handler makes and applies them in order
    before the next render; an updater function receives the value left by
    the updates queued before it.  Applying every update to the session as
    it is made yields the same state.  An updater that throws does so when
    it is run. *)

Definition update (f : Session -> Session) : Handler unit :=
  fun w => Return tt (mkWorld (f (session w)) (heap w) (next w) (trace w)).

Definition setSuccess (v : string) : Handler unit :=
  update (fun s => mkSession v (formErrors s) (error s) (open s) (openErr s)
                             (image s) (currentProduct s)).

Definition setFormErrors (v : JSValue) : Handler unit :=
  update (fun s => mkSession (success s) v (error s) (open s) (openErr s)
                             (image s) (currentProduct s)).

Definition setError (v : string) : Handler unit :=
  update (fun s => mkSession (success s) (formErrors s) v (open s) (openErr s)
                             (image s) (currentProduct s)).

Definition setOpen (v : bool) : Handler unit :=
  update (fun s => mkSession (success s) (formErrors s) (error s) v (openErr s)
                             (image s) (currentProduct s)).

Definition setOpenErr (v : bool) : Handler unit :=
  update (fun s => mkSession (success s) (formErrors s) (error s) (open s) v
                             (image s) (currentProduct s)).

Definition setImage (v : string) : Handler unit :=
  update (fun s => mkSession (success s) (formErrors s) (error s) (open s)
                             (openErr s) v (currentProduct s)).

(** [setFormErrors((prev) => ...)] *)
Definition setFormErrorsWith (f : JSValue -> outcome JSValue) : Handler unit :=
  fun w =>
    match f (formErrors (session w)) with
    | Ok v => setFormErrors v w
    | Raise e => Throw e w
    end.

(** [setCurrentProduct((prev) => ({ ...prev, ... }))]: the updater builds a
    new object, which becomes the draft; the previous object is left as it
    was. *)
Definition setCurrentProductWith (f : Product.t -> Product.t) : Handler unit :=
  fun w =>
    let s := session w in
    let l := next w in
    Return tt
      (mkWorld
         (mkSession (success s) (formErrors s) (error s) (open s) (openErr s)
                    (image s) l)
         (fun l' => if Nat.eqb l' l then f (heap w (currentProduct s)) else heap w l')
         (S l) (trace w)).

(** *** Objects and effects *)

(** Reading the object behind a reference. *)
Definition deref (l : loc) : Handler Product.t :=
  fun w => Return (heap w l) w.

(** [l.image = v]: the object is changed in place, for every holder of the
    reference. *)
Definition assign_image (l : loc) (v : string) : Handler unit :=
  fun w =>
    Return tt
      (mkWorld (session w)
               (fun l' => if Nat.eqb l' l then Product.with_image v (heap w l) else heap w l')
               (next w) (trace w)).

Definition emit (e : Effect) : Handler unit :=
  fun w => Return tt (mkWorld (session w) (heap w) (next w) (trace w ++ [e])).

(** [err.response], about to be dereferenced. *)
Definition the_response (err : AxiosError) : outcome Response :=
  match response err with
  | Some r => Ok r
  | None => Raise TypeError
  end.

(** [!s] for a string. *)
Definition not_ (s : string) : bool :=
  match s with
  | EmptyString => true
  | String _ _ => false
  end.

(** The callbacks chained on a request promise by [.then(..).catch(..)]. *)
Definition Continuation := Settlement -> Handler unit.

(** *** uploadImage *)

Definition uploadImage_then (NEXT_PUBLIC_APP_HOST : option string)
    (r : Render) (res : Response) : Handler unit :=
  match zod_object_image (data res) with
  | Some img =>
      assign_image (currentProduct (state r))
        (template_env NEXT_PUBLIC_APP_HOST ++ "/uploads/" ++ img) ;;
      p <- deref (currentProduct (state r)) ;;
      setImage (Product.image p)
  | None => ret tt
  end.

Definition uploadImage_catch (err : AxiosError) : Handler unit :=
  setFormErrorsWith (fun prevState =>
    let copied := spread prevState in
    resp <~ the_response err ;;
    e <~ dot_error (data resp) ;;
    Ok (JObject (put "image" (JArray [e]) copied))).

Definition uploadImage_settled (NEXT_PUBLIC_APP_HOST : option string)
    (r : Render) : Continuation :=
  fun s =>
    match s with
    | Fulfilled res => uploadImage_then NEXT_PUBLIC_APP_HOST r res
    | Rejected err => uploadImage_catch err
    end.

(** [file] is [e.target.files?.item(0)].  The handler returns the
    continuation it has registered on the request. *)
Definition uploadImage (NEXT_PUBLIC_APP_HOST : option string) (r : Render)
    (file : option File) : Handler Continuation :=
  setFormErrorsWith (fun prevState =>
    Ok (JObject (put "image" (JArray []) (spread prevState)))) ;;
  let data := Options.FormData [("image", file)] in
  let options := Options.mk "POST" "/api/images" [] data in
  emit (AxiosRequest options) ;;
  ret (uploadImage_settled NEXT_PUBLIC_APP_HOST r).

(** *** handleSubmit *)

Definition handleSubmit_then (r : Render) (res : Response) : Handler unit :=
  setSuccess "Product updated successfully" ;;
  setOpen true ;;
  emit (OnUpdate []).

Definition handleSubmit_catch (r : Render) (err : AxiosError) : Handler unit :=
  resp <- eval (the_response err) ;;
  if (status resp =? 400)%Z then
    e <- eval (dot_error (data resp)) ;;
    setFormErrors e ;;
    emit (ConsoleLog (formErrors (state r)))
  else if (status resp =? 403)%Z then
    e <- eval (dot_error (data resp)) ;;
    match zod_string e with
    | Some s => setError s ;; setOpenErr true
    | None => ret tt
    end
  else ret tt.

Definition handleSubmit_settled (r : Render) : Continuation :=
  fun s =>
    match s with
    | Fulfilled res => handleSubmit_then r res
    | Rejected err => handleSubmit_catch r err
    end.

(** The handler returns the continuation registered on the PATCH request,
    or nothing when it returns before making one. *)
Definition handleSubmit (r : Render) : Handler (option Continuation) :=
  setError "" ;;
  setFormErrors defaultErrors ;;
  draft <- deref (currentProduct (state r)) ;;
  if not_ (Product.image draft) then
    setFormErrorsWith (fun prev =>
      Ok (JObject (put "image" (JArray [JString "Image can not be empty"])
                       (spread prev)))) ;;
    ret None
  else
    original <- deref (product (props r)) ;;
    let options :=
      Options.mk "PATCH"
        ("/api/products/" ++ Id_toString (Product.id original))
        [("Content-Type", "application/x-www-form-urlencoded")]
        (Options.Plain
           (PatchData.mk (Product.id original)
                         (Product.image draft)
                         (Product.name draft)
                         (Product.price draft)
                         (Product.stock draft)
                         (option_map Category_id (category (props r)))
                         (Product.variants original))) in
    emit (AxiosRequest options) ;;
    ret (Some (handleSubmit_settled r)).

(** *** Editing and rendering *)

(** The [onChange] handler of the name input; [value] is
    [e.target.value]. *)
Definition onChange_name (value : string) : Handler unit :=
  setCurrentProductWith (Product.with_name value).

(** A render of the live state: the closures it creates see these props
    and this state. *)
Definition render (p : Props) (w : World) : Render :=
  mkRender p (session w).

(** A click on "Update product" followed by the settlement of the request
    it made, if any: [net] is the response received, or [None] for a
    network failure. *)
Definition submit_attempt (p : Props) (net : option Response) : Handler unit :=
  fun w =>
    (k <- handleSubmit (render p w) ;;
     match k with
     | Some continue => continue (axios_settle net)
     | None => ret tt
     end) w.

(** Requests among the effects. *)
Fixpoint requests (t : list Effect) : list Options.t :=
  match t with
  | [] => []
  | AxiosRequest o :: rest => o :: requests rest
  | _ :: rest => requests rest
  end.

(** Invocations of the [onUpdate] prop among the effects, each with its
    arguments. *)
Fixpoint onUpdate_calls (t : list Effect) : list (list JSValue) :=
  match t with
  | [] => []
  | OnUpdate args :: rest => args :: onUpdate_calls rest
  | _ :: rest => onUpdate_calls rest
  end.
End Handlers.

(** ** A concrete schema

    String identifiers, integer numbers, variants as a list of labels, a
    category as an identifier with a name, a file as its name. *)

Definition demo : Schema :=
  {| Id := string;
     Number := Z;
     CategoryId := string;
     Variants := list string;
     Category := string * string;
     File := string;
     Category_id := fst;
     Id_toString := fun s => s |}.

Definition kopi : @Product.t demo :=
  Product.mk (schema := demo) "p1" "" "Kopi" 12000%Z 4%Z "c1" ["hot"; "iced"].

Definition kopi_susu : @Product.t demo :=
  Product.mk (schema := demo) "p2" "http://kasir.in/uploads/susu.png" "Kopi Susu"
             15000%Z 7%Z "c1" ["iced"].

(** A store holding [kopi] (no image yet) at 0 and [kopi_susu] elsewhere. *)
Definition store0 : loc -> @Product.t demo :=
  fun l => match l with O => kopi | _ => kopi_susu end.

Definition minuman : option (@Category demo) := Some ("c9", "Minuman").

(** The dialog just opened on [kopi], and on [kopi_susu]. *)
Definition world_kopi : @World demo :=
  mkWorld (mount (mkProps 0 minuman) store0) store0 2 [].

Definition world_susu : @World demo :=
  mkWorld (mount (mkProps 1 minuman) store0) store0 2 [].

(** A session that still shows the errors of an earlier rejected attempt. *)
Definition stale_errors : @JSValue demo :=
  JObject [ ("name", JArray [JString "too short"]);
            ("price", JArray [JString "must be positive"]) ].

Definition world_rejected : @World demo :=
  mkWorld (mkSession "" stale_errors "old" false true
                     "http://kasir.in/uploads/susu.png" 1)
          store0 2 [].


Definition props_kopi : @Props demo := mkProps 0 minuman.

Definition props_susu : @Props demo := mkProps 1 minuman.

Definition host_kasirin : option string := Some "http://kasir.in".

(** Answers of the server. *)
Definition uploaded : @Response demo :=
  mkResponse 200 (JObject [("image", JString "x.png")]).

Definition updated : @Response demo :=
  mkResponse 200 (JObject [("id", JString "p2")]).

Definition too_short : @JSValue demo :=
  JObject [("name", JArray [JString "too short"])].

Definition rejected_bare : @Response demo :=
  mkResponse 400 too_short.

Definition rejected : @Response demo :=
  mkResponse 400 (JObject [("error", too_short)]).

Definition forbidden : @Response demo :=
  mkResponse 403 (JObject [("error", JString "not allowed")]).

Definition forbidden_coded : @Response demo :=
  mkResponse 403 (JObject [("error", JNumber (schema := demo) 7%Z)]).

Definition server_error : @Response demo :=
  mkResponse 500 (JObject [("message", JString "boom")]).

Definition too_large : @Response demo :=
  mkResponse 413 (JObject [("error", JString "File too large")]).

Definition negative_price : @JSValue demo :=
  JObject [("price", JArray [JString "must be positive"])].

Definition rejected_price : @Response demo :=
  mkResponse 400 (JObject [("error", negative_price)]).

(** ** The remaining handlers and the event loop *)

Section Events.
Context {schema : Schema}.

(** The builtin [parseInt], from the text of an input to a number (the
    not-a-number value included). *)
Variable parseInt : string -> Number.

(** [{ ...prev, price: v }] *)
Definition with_price (v : Number) (prev : Product.t) : Product.t :=
  Product.mk (Product.id prev) (Product.image prev) (Product.name prev) v
             (Product.stock prev) (Product.categoryId prev) (Product.variants prev).

(** [{ ...prev, stock: v }] *)
Definition with_stock (v : Number) (prev : Product.t) : Product.t :=
  Product.mk (Product.id prev) (Product.image prev) (Product.name prev)
             (Product.price prev) v (Product.categoryId prev) (Product.variants prev).

(** The [onChange] handlers of the price and stock inputs; [value] is
    [e.target.value]. *)
Definition onChange_price (value : string) : Handler unit :=
  setCurrentProductWith (with_price (parseInt value)).

Definition onChange_stock (value : string) : Handler unit :=
  setCurrentProductWith (with_stock (parseInt value)).

(** The close buttons of the two toasts. *)
Definition closeError : Handler unit := setOpenErr false.

Definition closeSuccess : Handler unit := setOpen false.

(** The draft in use: the object the [currentProduct] cell refers to. *)
Definition draft (w : World) : Product.t :=
  heap w (currentProduct (session w)).

(** A file choice followed by the settlement of the upload it starts. *)
Definition upload_attempt (NEXT_PUBLIC_APP_HOST : option string) (p : Props)
    (file : option File) (net : option Response) : Handler unit :=
  fun w =>
    bind (uploadImage NEXT_PUBLIC_APP_HOST (render p w) file)
         (fun continue => continue (axios_settle net)) w.

(** What can happen to an open dialog.  A user event runs the handler of
    the latest render, under the props [p] of that render.  A settlement
    runs the continuation of the render [r] that made the request; as
    nothing here ties [r] to an earlier state, every order in which
    answers can arrive is covered. *)
Inductive Event :=
| PickFile (p : Props) (file : option File)
| UploadSettled (r : Render) (s : Settlement)
| ClickUpdate (p : Props)
| UpdateSettled (r : Render) (s : Settlement)
| TypeName (value : string)
| TypePrice (value : string)
| TypeStock (value : string)
| CloseError
| CloseSuccess.

Definition step (NEXT_PUBLIC_APP_HOST : option string) (e : Event) (w : World)
  : World :=
  match e with
  | PickFile p file =>
      world_of (uploadImage NEXT_PUBLIC_APP_HOST (render p w) file w)
  | UploadSettled r s => world_of (uploadImage_settled NEXT_PUBLIC_APP_HOST r s w)
  | ClickUpdate p => world_of (handleSubmit (render p w) w)
  | UpdateSettled r s => world_of (handleSubmit_settled r s w)
  | TypeName value => world_of (onChange_name value w)
  | TypePrice value => world_of (onChange_price value w)
  | TypeStock value => world_of (onChange_stock value w)
  | CloseError => world_of (closeError w)
  | CloseSuccess => world_of (closeSuccess w)
  end.

Fixpoint run (NEXT_PUBLIC_APP_HOST : option string) (es : list Event) (w : World)
  : World :=
  match es with
  | [] => w
  | e :: rest => run NEXT_PUBLIC_APP_HOST rest (step NEXT_PUBLIC_APP_HOST e w)
  end.

(** The clicks on "Update product" of a run are all made under props [p]. *)
Definition clicks_under (p : Props) (e : Event) : Prop :=
  match e with
  | ClickUpdate q => q = p
  | _ => True
  end.

(** A request the component may make for the product [original]: the
    upload of one file, or a PATCH of that product carrying its
    identifier and its variants. *)
Definition request_for (original : Product.t) (o : Options.t) : Prop :=
  match Options.data o with
  | Options.FormData entries =>
      Options.method o = "POST" /\ Options.url o = "/api/images" /\
      map fst entries = ["image"]
  | Options.Plain d =>
      Options.method o = "PATCH" /\
      Options.url o = "/api/products/" ++ Id_toString (Product.id original) /\
      PatchData.id d = Product.id original /\
      PatchData.variants d = Product.variants original
  end.
End Events.

(** A stand-in for [parseInt] on the concrete schema: the decimal numeral
    read, 0 where there is none. *)
Definition parse_decimal (s : string) : @Number demo :=
  match NilZero.int_of_string s with
  | Some i => Z.of_int i
  | None => 0%Z
  end.

(** A file is chosen on the dialog opened on [kopi], the name and the
    price are typed and "Update product" is clicked while the upload is
    under way; the upload then succeeds and the PATCH is refused. *)
Definition hurried : list (@Event demo) :=
  [ PickFile props_kopi (Some "x.png");
    TypeName "Kopi Tubruk";
    TypePrice "9000";
    ClickUpdate props_kopi;
    UploadSettled (render props_kopi world_kopi) (axios_settle (Some uploaded));
    ClickUpdate props_kopi;
    UpdateSettled (render props_kopi world_kopi) (axios_settle (Some forbidden)) ].
(** ** Properties *)

Section Properties.
Context {schema : Schema}.

(** *** Objects *)

Lemma own_put_same (k : string) (v : JSValue) (ps : list (string * JSValue)) :
  own k (put k v ps) = Some v.
Proof.
  induction ps as [| [k' v'] rest IH]; simpl.
  - now rewrite String.eqb_refl.
  - destruct (String.eqb k k') eqn:E; simpl.
    + now rewrite String.eqb_refl.
    + now rewrite E.
Qed.

Lemma own_put_other (k k' : string) (v : JSValue) (ps : list (string * JSValue)) :
  k <> k' -> own k' (put k v ps) = own k' ps.
Proof.
  intros Hk.
  induction ps as [| [k0 v0] rest IH]; simpl.
  - destruct (String.eqb k' k) eqn:E; [| reflexivity].
    apply String.eqb_eq in E. congruence.
  - destruct (String.eqb k k0) eqn:E; simpl.
    + apply String.eqb_eq in E. subst k0.
      destruct (String.eqb k' k) eqn:E'; [| reflexivity].
      apply String.eqb_eq in E'. congruence.
    + now rewrite IH.
Qed.

Lemma not_true_iff (s : string) : not_ s = true <-> s = "".
Proof. destruct s; simpl; split; congruence. Qed.

Lemma not_false_iff (s : string) : not_ s = false <-> s <> "".
Proof. destruct s; simpl; split; congruence. Qed.

(** [v.error] throws exactly on [undefined] and [null]. *)
Lemma dot_error_raises (v : JSValue) :
  (exists e, dot_error v = Raise e) <-> v = JUndefined \/ v = JNull.
Proof.
  split.
  - intros [e H]. destruct v; simpl in H; try discriminate; auto.
  - intros [-> | ->]; now exists TypeError.
Qed.

(** *** handleSubmit, up to the request *)

Lemma handleSubmit_empty (r : Render) (w : World) :
  not_ (Product.image (heap w (currentProduct (state r)))) = true ->
  handleSubmit r w =
    Return None
      (mkWorld (mkSession (success (session w)) image_required ""
                          (open (session w)) (openErr (session w))
                          (image (session w)) (currentProduct (session w)))
               (heap w) (next w) (trace w)).
Proof.
  intros H. unfold handleSubmit, bind, deref, setError, setFormErrors, update.
  simpl. rewrite H. reflexivity.
Qed.

Lemma handleSubmit_nonempty (r : Render) (w : World) :
  not_ (Product.image (heap w (currentProduct (state r)))) = false ->
  exists o,
    handleSubmit r w =
      Return (Some (handleSubmit_settled r))
        (mkWorld (mkSession (success (session w)) defaultErrors ""
                            (open (session w)) (openErr (session w))
                            (image (session w)) (currentProduct (session w)))
                 (heap w) (next w) (trace w ++ [AxiosRequest o])) /\
    o = Options.mk "PATCH"
          ("/api/products/" ++ Id_toString (Product.id (heap w (product (props r)))))
          [("Content-Type", "application/x-www-form-urlencoded")]
          (Options.Plain
             (PatchData.mk
                (Product.id (heap w (product (props r))))
                (Product.image (heap w (currentProduct (state r))))
                (Product.name (heap w (currentProduct (state r))))
                (Product.price (heap w (currentProduct (state r))))
                (Product.stock (heap w (currentProduct (state r))))
                (option_map Category_id (category (props r)))
                (Product.variants (heap w (product (props r)))))).
Proof.
  intros H. eexists. split; [| reflexivity].
  unfold handleSubmit, bind, deref, setError, setFormErrors, update.
  simpl. rewrite H. reflexivity.
Qed.

(** C1.  When the draft's image is empty, a click on "Update product"
    makes no request (the effects are what they were and no continuation
    is registered) and leaves ["Image can not be empty"] as the only error
    of the image field, the other fields being cleared. *)
Theorem submit_empty_image_rejected_locally (p : Props) (w : World) :
  Product.image (heap w (currentProduct (session w))) = "" ->
  exists w',
    handleSubmit (render p w) w = Return None w' /\
    trace w' = trace w /\
    requests (trace w') = requests (trace w) /\
    own "image" (spread (formErrors (session w'))) =
      Some (JArray [JString "Image can not be empty"]) /\
    formErrors (session w') =
      JObject [ ("id", JArray [JString ""]);
                ("image", JArray [JString "Image can not be empty"]);
                ("name", JArray [JString ""]);
                ("price", JArray [JString ""]);
                ("stock", JArray [JString ""]);
                ("categoryId", JArray [JString ""]);
                ("variants", JArray [JString ""]) ].
Proof.
  intros H. apply not_true_iff in H.
  eexists. split.
  - apply handleSubmit_empty. exact H.
  - simpl. repeat split; reflexivity.
Qed.


(** C7.  When the draft's image is not empty, a click on "Update product"
    makes exactly one request, a PATCH on the product's URL, whose body
    takes [id] and [variants] from the [product] prop, [image], [name],
    [price] and [stock] from the draft, and [categoryId] from the
    [category] prop ([undefined] when there is none); the draft's own
    [categoryId] and [variants] are not read. *)
Theorem submit_request_body (p : Props) (w : World) :
  Product.image (heap w (currentProduct (session w))) <> "" ->
  let original := heap w (product p) in
  let draft := heap w (currentProduct (session w)) in
  exists w' o d,
    handleSubmit (render p w) w =
      Return (Some (handleSubmit_settled (render p w))) w' /\
    trace w' = (trace w ++ [AxiosRequest o])%list /\
    Options.method o = "PATCH" /\
    Options.url o = "/api/products/" ++ Id_toString (Product.id original) /\
    Options.data o = Options.Plain d /\
    PatchData.id d = Product.id original /\
    PatchData.image d = Product.image draft /\
    PatchData.name d = Product.name draft /\
    PatchData.price d = Product.price draft /\
    PatchData.stock d = Product.stock draft /\
    PatchData.categoryId d = option_map Category_id (category p) /\
    PatchData.variants d = Product.variants original.
Proof.
  intros H original draft. apply not_false_iff in H.
  destruct (handleSubmit_nonempty (render p w) w H) as [o [Hrun Ho]].
  eexists. exists o. eexists.
  split; [exact Hrun |].
  subst o. simpl. repeat split; reflexivity.
Qed.

(** C10.  [defaultErrors] has the seven fields [id], [image], [name],
    [price], [stock], [categoryId] and [variants], each holding the
    one-element list [[""]], which is not the empty list.  The first render
    starts from it, and [handleSubmit] resets the field errors to it: they
    are [defaultErrors] when the request is made, and [defaultErrors] with
    the image error put in when the draft's image is empty. *)
Theorem defaultErrors_blank_strings (p : Props) (h : loc -> Product.t) (w : World) :
  map fst (spread defaultErrors) =
    ["id"; "image"; "name"; "price"; "stock"; "categoryId"; "variants"] /\
  Forall (fun k => own k (spread defaultErrors) = Some (JArray [JString ""]))
    ["id"; "image"; "name"; "price"; "stock"; "categoryId"; "variants"] /\
  JArray [JString ""] <> JArray [] /\
  formErrors (mount p h) = defaultErrors /\
  formErrors (session (world_of (handleSubmit (render p w) w))) =
    (if not_ (Product.image (heap w (currentProduct (session w))))
     then JObject (put "image" (JArray [JString "Image can not be empty"])
                       (spread defaultErrors))
     else defaultErrors).
Proof.
  split; [reflexivity |].
  split; [repeat constructor |].
  split; [discriminate |].
  split; [reflexivity |].
  destruct (not_ (Product.image (heap w (currentProduct (session w))))) eqn:E.
  - rewrite (handleSubmit_empty (render p w) w E). reflexivity.
  - destruct (handleSubmit_nonempty (render p w) w E) as [o [Hrun _]].
    rewrite Hrun. reflexivity.
Qed.

(** *** handleSubmit, once the request has settled *)

Lemma settle_2xx (res : Response) :
  (200 <= status res < 300)%Z -> axios_settle (Some res) = Fulfilled res.
Proof.
  intros [Hlo Hhi]. unfold axios_settle.
  apply Z.leb_le in Hlo. apply Z.ltb_lt in Hhi.
  now rewrite Hlo, Hhi.
Qed.

Lemma settle_failed (res : Response) :
  ~ (200 <= status res < 300)%Z ->
  axios_settle (Some res) = Rejected (mkAxiosError (Some res)).
Proof.
  intros H. unfold axios_settle.
  destruct (200 <=? status res)%Z eqn:Hlo; [| reflexivity].
  destruct (status res <? 300)%Z eqn:Hhi; [| reflexivity].
  apply Z.leb_le in Hlo. apply Z.ltb_lt in Hhi. lia.
Qed.

(** C4.  When the PATCH request is answered with a 2xx status, the
    continuation returns normally having set the success message and
    opened the success toast, and its one effect is a single call of
    [onUpdate] with an empty argument list. *)
Theorem update_2xx_notifies (r : Render) (w : World) (res : Response) :
  (200 <= status res < 300)%Z ->
  exists w',
    handleSubmit_settled r (axios_settle (Some res)) w = Return tt w' /\
    success (session w') = "Product updated successfully" /\
    open (session w') = true /\
    trace w' = (trace w ++ [OnUpdate []])%list /\
    onUpdate_calls (trace w') = (onUpdate_calls (trace w) ++ [[]])%list.
Proof.
  intros H. unfold handleSubmit_settled. rewrite (settle_2xx res H).
  eexists. split; [reflexivity |]. simpl.
  repeat split.
  induction (trace w) as [| e t IH]; simpl; [reflexivity |].
  destruct e; simpl; now rewrite ?IH.
Qed.

(** A 400 answer: the [error] member of the body becomes the field errors
    as a whole; nothing of the previous field errors is looked at. *)
Lemma handleSubmit_catch_400 (r : Render) (w : World) (resp : Response)
    (e : JSValue) :
  status resp = 400%Z ->
  dot_error (data resp) = Ok e ->
  handleSubmit_catch r (mkAxiosError (Some resp)) w =
    Return tt
      (mkWorld (mkSession (success (session w)) e (error (session w))
                          (open (session w)) (openErr (session w))
                          (image (session w)) (currentProduct (session w)))
               (heap w) (next w)
               (trace w ++ [ConsoleLog (formErrors (state r))])).
Proof.
  intros Hs He. unfold handleSubmit_catch, bind, eval. simpl.
  rewrite Hs, He. reflexivity.
Qed.

(** C2, as the code has it.  When the PATCH request is answered with
    status 400 and reading [error] off the body does not throw, the field
    errors become exactly the value of the body's [error] member
    ([undefined] when the body has none), whatever they were before; the
    other state cells and the store are untouched. *)
Theorem update_400_replaces_field_errors (r : Render) (w : World)
    (resp : Response) (e : JSValue) :
  status resp = 400%Z ->
  dot_error (data resp) = Ok e ->
  exists w',
    handleSubmit_settled r (axios_settle (Some resp)) w = Return tt w' /\
    formErrors (session w') = e /\
    success (session w') = success (session w) /\
    error (session w') = error (session w) /\
    open (session w') = open (session w) /\
    openErr (session w') = openErr (session w) /\
    image (session w') = image (session w) /\
    currentProduct (session w') = currentProduct (session w) /\
    heap w' = heap w.
Proof.
  intros Hs He. unfold handleSubmit_settled.
  rewrite settle_failed by lia.
  rewrite (handleSubmit_catch_400 r w resp e Hs He).
  eexists. split; [reflexivity |]. simpl. repeat split.
Qed.

(** C5.  When the PATCH request is answered with status 403: if the
    body's [error] member is a string, it becomes the top-level error and
    the error toast is opened; in every other case (a member that is not a
    string, no such member, a body off which [error] cannot be read) the
    world is left exactly as it was. *)
Theorem update_403_error_toast (r : Render) (w : World) (resp : Response) :
  status resp = 403%Z ->
  (forall s,
     dot_error (data resp) = Ok (JString s) ->
     exists w',
       handleSubmit_settled r (axios_settle (Some resp)) w = Return tt w' /\
       error (session w') = s /\
       openErr (session w') = true /\
       formErrors (session w') = formErrors (session w) /\
       trace w' = trace w) /\
  ((forall s, dot_error (data resp) <> Ok (JString s)) ->
   world_of (handleSubmit_settled r (axios_settle (Some resp)) w) = w).
Proof.
  intros Hs. unfold handleSubmit_settled.
  rewrite settle_failed by lia.
  unfold handleSubmit_catch, bind, eval. simpl. rewrite Hs. simpl.
  split.
  - intros s He. rewrite He. simpl.
    eexists. split; [reflexivity |]. simpl. repeat split.
  - intros Hno.
    destruct (dot_error (data resp)) as [v | err]; [| reflexivity].
    destruct v; try reflexivity.
    now destruct (Hno s).
Qed.

(** C9.  When the PATCH request fails without a response, or with a
    response whose status is neither 400 nor 403, the continuation leaves
    the world exactly as it was: no state cell changes and nothing is
    done to the outside. *)
Theorem update_other_failure_ignored (r : Render) (w : World)
    (net : option Response) :
  match net with
  | None => True
  | Some resp =>
      ~ (200 <= status resp < 300)%Z /\
      status resp <> 400%Z /\ status resp <> 403%Z
  end ->
  world_of (handleSubmit_settled r (axios_settle net) w) = w.
Proof.
  destruct net as [resp |]; [| reflexivity].
  intros [Hfail [H400 H403]]. unfold handleSubmit_settled.
  rewrite (settle_failed resp Hfail).
  unfold handleSubmit_catch, bind, eval. simpl.
  apply Z.eqb_neq in H400, H403. now rewrite H400, H403.
Qed.

(** *** Whole submit attempts *)

(** The field errors at the end of an attempt, from the draft's image and
    the answer alone. *)
Lemma submit_attempt_formErrors (p : Props) (net : option Response) (w : World) :
  formErrors (session (world_of (submit_attempt p net w))) =
    if not_ (Product.image (heap w (currentProduct (session w))))
    then image_required
    else
      match axios_settle net with
      | Rejected (mkAxiosError (Some resp)) =>
          if (status resp =? 400)%Z
          then match dot_error (data resp) with
               | Ok e => e
               | Raise _ => defaultErrors
               end
          else defaultErrors
      | _ => defaultErrors
      end.
Proof.
  unfold submit_attempt, bind.
  destruct (not_ (Product.image (heap w (currentProduct (session w))))) eqn:E.
  - rewrite (handleSubmit_empty (render p w) w E). reflexivity.
  - destruct (handleSubmit_nonempty (render p w) w E) as [o [Hrun _]].
    rewrite Hrun. unfold handleSubmit_settled.
    destruct (axios_settle net) as [res | [[resp |]]]; try reflexivity.
    unfold handleSubmit_catch, bind, eval. simpl.
    destruct (status resp =? 400)%Z.
    + destruct (dot_error (data resp)); reflexivity.
    + destruct (status resp =? 403)%Z; [| reflexivity].
      destruct (dot_error (data resp)) as [v |]; [| reflexivity].
      simpl. destruct (zod_string v); reflexivity.
Qed.

(** An attempt neither changes a product object nor the draft in use. *)
Lemma submit_attempt_frame (p : Props) (net : option Response) (w : World) :
  heap (world_of (submit_attempt p net w)) = heap w /\
  currentProduct (session (world_of (submit_attempt p net w))) =
    currentProduct (session w).
Proof.
  unfold submit_attempt, bind.
  destruct (not_ (Product.image (heap w (currentProduct (session w))))) eqn:E.
  - rewrite (handleSubmit_empty (render p w) w E). split; reflexivity.
  - destruct (handleSubmit_nonempty (render p w) w E) as [o [Hrun _]].
    rewrite Hrun. unfold handleSubmit_settled.
    destruct (axios_settle net) as [res | [[resp |]]]; try (split; reflexivity).
    unfold handleSubmit_catch, bind, eval. simpl.
    destruct (status resp =? 400)%Z.
    + destruct (dot_error (data resp)); split; reflexivity.
    + destruct (status resp =? 403)%Z; [| split; reflexivity].
      destruct (dot_error (data resp)) as [v |]; [| split; reflexivity].
      simpl. destruct (zod_string v); split; reflexivity.
Qed.

(** C6.  After two submit attempts made one after the other (the second
    one clicked once the first has settled), the field errors are those
    the second attempt alone produces: the same as when it is made from
    any other session whose draft has the same image, whatever field
    errors that session holds.  They are [defaultErrors], or
    [defaultErrors] with the image error, or the [error] member of the
    second 400 answer; nothing of the first attempt is left in them. *)
Theorem submit_errors_from_last_attempt (p1 p2 : Props)
    (net1 net2 : option Response) (w other : World) :
  Product.image (heap other (currentProduct (session other))) =
    Product.image (heap w (currentProduct (session w))) ->
  let w1 := world_of (submit_attempt p1 net1 w) in
  let fe := formErrors (session (world_of (submit_attempt p2 net2 w1))) in
  fe = formErrors (session (world_of (submit_attempt p2 net2 other))) /\
  (fe = defaultErrors \/
   fe = image_required \/
   exists resp,
     net2 = Some resp /\ status resp = 400%Z /\ dot_error (data resp) = Ok fe).
Proof.
  intros Himg w1 fe. subst fe.
  rewrite !submit_attempt_formErrors.
  destruct (submit_attempt_frame p1 net1 w) as [Hheap Hcur].
  fold w1 in Hheap, Hcur. rewrite Hheap, Hcur, Himg.
  split; [reflexivity |].
  destruct (not_ (Product.image (heap w (currentProduct (session w)))));
    [now (right; left) |].
  destruct net2 as [resp |]; [| now left].
  unfold axios_settle.
  destruct ((200 <=? status resp)%Z && (status resp <? 300)%Z); [now left |].
  destruct (status resp =? 400)%Z eqn:E400; [| now left].
  destruct (dot_error (data resp)) as [e |] eqn:Ee; [| now left].
  right; right. exists resp. apply Z.eqb_eq in E400. auto.
Qed.

(** *** uploadImage *)

(** C8, as the code has it.  The failure continuation of an upload throws
    exactly when the error carries no response, or a response whose body
    is [undefined] or [null].  In every other case it returns, and the
    image field's errors are the one-element list holding the body's
    [error] member, which is [undefined] when the body has no such member;
    the errors of the other fields are kept. *)
Theorem upload_failure_image_error (w : World) (err : AxiosError) :
  let out := uploadImage_catch err w in
  (throws out = true <->
     response err = None \/
     exists resp, response err = Some resp /\
                  (data resp = JUndefined \/ data resp = JNull)) /\
  (forall resp e,
     response err = Some resp ->
     dot_error (data resp) = Ok e ->
     throws out = false /\
     own "image" (spread (formErrors (session (world_of out)))) =
       Some (JArray [e]) /\
     forall k, k <> "image" ->
       own k (spread (formErrors (session (world_of out)))) =
         own k (spread (formErrors (session w)))).
Proof.
  destruct err as [[resp |]];
    unfold uploadImage_catch, setFormErrorsWith, the_response; simpl.
  - destruct (dot_error (data resp)) as [e | x] eqn:He; simpl.
    + split.
      * split; [discriminate |].
        intros [H | [resp' [H Hd]]]; [discriminate |].
        injection H as <-.
        assert (Hr : exists x, dot_error (data resp) = Raise x)
          by now apply dot_error_raises.
        destruct Hr as [x Hx]. congruence.
      * intros resp' e' H He'. injection H as <-.
        assert (e' = e) by congruence. subst e'.
        split; [reflexivity |]. split.
        -- apply own_put_same.
        -- intros k Hk. apply own_put_other. congruence.
    + split.
      * split; [| reflexivity].
        intros _. right. exists resp. split; [reflexivity |].
        apply dot_error_raises. now exists x.
      * intros resp' e' H He'. injection H as <-. congruence.
  - split.
    + split; [now left | reflexivity].
    + intros resp' e' H. discriminate.
Qed.

(** On a body of the expected shape the success continuation writes the
    full URL into the object its closure holds as [currentProduct] and
    into the [image] cell; the draft in use is that object unless it has
    been replaced since the render that created the closure. *)
Lemma uploadImage_then_shaped (host : option string) (r : Render)
    (res : Response) (w : World) (s : string) :
  zod_object_image (data res) = Some s ->
  exists w',
    uploadImage_then host r res w = Return tt w' /\
    Product.image (heap w' (currentProduct (state r))) =
      template_env host ++ "/uploads/" ++ s /\
    image (session w') = template_env host ++ "/uploads/" ++ s /\
    formErrors (session w') = formErrors (session w) /\
    currentProduct (session w') = currentProduct (session w) /\
    trace w' = trace w.
Proof.
  intros H. unfold uploadImage_then. rewrite H.
  eexists. split; [reflexivity |]. simpl.
  rewrite Nat.eqb_refl. repeat split.
Qed.

Lemma uploadImage_then_live_draft (host : string) (p : Props)
    (res : Response) (w : World) (s : string) :
  zod_object_image (data res) = Some s ->
  exists w',
    uploadImage_then (Some host) (render p w) res w = Return tt w' /\
    Product.image (heap w' (currentProduct (session w'))) =
      host ++ "/uploads/" ++ s /\
    image (session w') = host ++ "/uploads/" ++ s.
Proof.
  intros H.
  destruct (uploadImage_then_shaped (Some host) (render p w) res w s H)
    as [w' [Hrun [Hobj [Himg [_ [Hcur _]]]]]].
  exists w'. rewrite Hcur. auto.
Qed.

(** On any other body the success continuation does nothing at all. *)
Lemma uploadImage_then_unshaped (host : option string) (r : Render)
    (res : Response) (w : World) :
  zod_object_image (data res) = None ->
  uploadImage_then host r res w = Return tt w.
Proof.
  intros H. unfold uploadImage_then. now rewrite H.
Qed.

End Properties.

(** ** Further properties of the handlers *)

Section Coverage.
Context {schema : Schema}.
Variable parseInt : string -> Number.

Lemma requests_app (t t' : list Effect) :
  requests (t ++ t') = (requests t ++ requests t')%list.
Proof.
  induction t as [| e t IH]; simpl; [reflexivity |].
  destruct e; simpl; now rewrite ?IH.
Qed.

Lemma onUpdate_calls_app (t t' : list Effect) :
  onUpdate_calls (t ++ t') = (onUpdate_calls t ++ onUpdate_calls t')%list.
Proof.
  induction t as [| e t IH]; simpl; [reflexivity |].
  destruct e; simpl; now rewrite ?IH.
Qed.

(** The state in which [uploadImage] returns. *)
Lemma uploadImage_start (host : option string) (r : Render)
    (file : option File) (w : World) :
  uploadImage host r file w =
    Return (uploadImage_settled host r)
      (mkWorld
         (mkSession (success (session w))
            (JObject (put "image" (JArray []) (spread (formErrors (session w)))))
            (error (session w)) (open (session w)) (openErr (session w))
            (image (session w)) (currentProduct (session w)))
         (heap w) (next w)
         (trace w ++
          [AxiosRequest (Options.mk "POST" "/api/images" []
                           (Options.FormData [("image", file)]))])).
Proof. reflexivity. Qed.

(** X1.  Choosing a file never throws.  It empties the image field's
    error list (to the empty list, not to [[""]]), keeps the errors of
    every other field, turns field errors that were not an object
    ([undefined] after a 400 answer without [error] member, say) into
    one, and sends the file in a POST to [/api/images] as the one entry
    [image] of a form. *)
Theorem uploadImage_clears_image_errors (host : option string) (r : Render)
    (file : option File) (w : World) :
  exists w',
    uploadImage host r file w = Return (uploadImage_settled host r) w' /\
    own "image" (spread (formErrors (session w'))) = Some (JArray []) /\
    (forall k, k <> "image" ->
       own k (spread (formErrors (session w'))) =
         own k (spread (formErrors (session w)))) /\
    (exists fields, formErrors (session w') = JObject fields) /\
    trace w' =
      (trace w ++
       [AxiosRequest (Options.mk "POST" "/api/images" []
                        (Options.FormData [("image", file)]))])%list.
Proof.
  eexists. split; [apply uploadImage_start |]. simpl.
  split; [apply own_put_same |].
  split; [intros k Hk; apply own_put_other; congruence |].
  split; [eexists; reflexivity | reflexivity].
Qed.


(** X3.  A submit attempt calls [onUpdate] exactly when the draft has an
    image and the request is fulfilled, and then once, without arguments;
    a refusal for want of an image, a rejected request and a network
    failure never call it. *)
Theorem onUpdate_exactly_when_updated (p : Props) (net : option Response)
    (w : World) :
  onUpdate_calls (trace (world_of (submit_attempt p net w))) =
    (onUpdate_calls (trace w) ++
     if not_ (Product.image (draft w)) then []
     else match axios_settle net with
          | Fulfilled _ => [[]]
          | Rejected _ => []
          end)%list.
Proof.
  unfold submit_attempt, bind, draft.
  destruct (not_ (Product.image (heap w (currentProduct (session w))))) eqn:E.
  - rewrite (handleSubmit_empty (render p w) w E). simpl.
    now rewrite app_nil_r.
  - destruct (handleSubmit_nonempty (render p w) w E) as [o [Hrun _]].
    rewrite Hrun. unfold handleSubmit_settled.
    destruct (axios_settle net) as [res | [[resp |]]]; simpl;
      rewrite ?onUpdate_calls_app; simpl; rewrite ?app_nil_r; try reflexivity.
    unfold handleSubmit_catch, bind, eval. simpl.
    destruct (status resp =? 400)%Z.
    + destruct (dot_error (data resp)); simpl;
        rewrite ?onUpdate_calls_app; simpl; now rewrite ?app_nil_r.
    + destruct (status resp =? 403)%Z;
        [| simpl; rewrite onUpdate_calls_app; simpl; now rewrite app_nil_r].
      destruct (dot_error (data resp)) as [v |]; simpl;
        [| rewrite onUpdate_calls_app; simpl; now rewrite app_nil_r].
      destruct (zod_string v); simpl;
        rewrite onUpdate_calls_app; simpl; now rewrite app_nil_r.
Qed.

Lemma settled_requests (host : option string) (r : Render)
    (s : Settlement) (w : World) :
  requests (trace (world_of (handleSubmit_settled r s w))) = requests (trace w) /\
  requests (trace (world_of (uploadImage_settled host r s w))) = requests (trace w).
Proof.
  split.
  - unfold handleSubmit_settled. destruct s as [res | [[resp |]]];
      simpl; rewrite ?requests_app; simpl; rewrite ?app_nil_r; try reflexivity.
    unfold handleSubmit_catch, bind, eval. simpl.
    destruct (status resp =? 400)%Z.
    + destruct (dot_error (data resp)); simpl;
        rewrite ?requests_app; simpl; now rewrite ?app_nil_r.
    + destruct (status resp =? 403)%Z; [| reflexivity].
      destruct (dot_error (data resp)) as [v |]; [| reflexivity].
      simpl. destruct (zod_string v); reflexivity.
  - unfold uploadImage_settled. destruct s as [res | err].
    + unfold uploadImage_then. destruct (zod_object_image (data res)); reflexivity.
    + unfold uploadImage_catch, setFormErrorsWith.
      destruct (obind (the_response err) _); reflexivity.
Qed.

(** X4.  No continuation makes a request: whatever the answer to a PATCH
    or to an upload, and whichever render made the request, handling the
    answer sends nothing (there is no retry). *)
Theorem settlements_make_no_request (host : option string) (r : Render)
    (s : Settlement) (w : World) :
  requests (trace (world_of (handleSubmit_settled r s w))) = requests (trace w) /\
  requests (trace (world_of (uploadImage_settled host r s w))) = requests (trace w).
Proof. exact (settled_requests host r s w). Qed.

(** X5.  A submit attempt never closes a toast.  A success toast that is
    open stays open, with the message it had or the new one.  An error
    toast that is open stays open too, and as the attempt first clears the
    top-level error, it shows the empty message unless the answer is a 403
    with a string [error], which it then shows. *)
Theorem submit_never_closes_toasts (p : Props) (net : option Response)
    (w : World) :
  let w' := world_of (submit_attempt p net w) in
  (open (session w) = true -> open (session w') = true) /\
  (openErr (session w) = true -> openErr (session w') = true) /\
  (success (session w') = success (session w) \/
   success (session w') = "Product updated successfully") /\
  (error (session w') = "" \/
   exists resp s,
     net = Some resp /\ status resp = 403%Z /\
     dot_error (data resp) = Ok (JString s) /\ error (session w') = s).
Proof.
  cbv zeta. unfold submit_attempt, bind.
  destruct (not_ (Product.image (heap w (currentProduct (session w))))) eqn:E.
  - rewrite (handleSubmit_empty (render p w) w E). simpl. auto.
  - destruct (handleSubmit_nonempty (render p w) w E) as [o [Hrun _]].
    rewrite Hrun. unfold handleSubmit_settled.
    destruct net as [resp |]; [| simpl; auto].
    unfold axios_settle.
    destruct ((200 <=? status resp)%Z && (status resp <? 300)%Z);
      [simpl; auto |].
    unfold handleSubmit_catch, bind, eval. simpl.
    destruct (status resp =? 400)%Z.
    + destruct (dot_error (data resp)); simpl; auto.
    + destruct (status resp =? 403)%Z eqn:E403; [| simpl; auto].
      destruct (dot_error (data resp)) as [v |] eqn:Ev; [| simpl; auto].
      destruct v; simpl; auto.
      repeat split; auto.
      right. exists resp, s. apply Z.eqb_eq in E403. auto.
Qed.

Lemma not_app_suffix (a b : string) : not_ b = false -> not_ (a ++ b) = false.
Proof. destruct a; simpl; auto. Qed.

(** X6.  What is typed is what is sent.  After a change of the name, the
    price or the stock input, a click on "Update product" (the draft
    having an image) sends the typed name, or [parseInt] of the typed
    price or stock as it comes, with every other field of the body as it
    would have been sent before the change. *)
Theorem typed_value_is_sent (p : Props) (w : World) (value : string) :
  Product.image (draft w) <> "" ->
  product p < next w ->
  let body_after (edit : Handler unit) :=
    let w1 := world_of (edit w) in
    requests (trace (world_of (handleSubmit (render p w1) w1))) in
  let sent name price stock :=
    (requests (trace w) ++
     [Options.mk "PATCH"
        ("/api/products/" ++ Id_toString (Product.id (heap w (product p))))
        [("Content-Type", "application/x-www-form-urlencoded")]
        (Options.Plain
           (PatchData.mk (Product.id (heap w (product p)))
              (Product.image (draft w)) name price stock
              (option_map Category_id (category p))
              (Product.variants (heap w (product p)))))])%list in
  body_after (onChange_name value) =
    sent value (Product.price (draft w)) (Product.stock (draft w)) /\
  body_after (onChange_price parseInt value) =
    sent (Product.name (draft w)) (parseInt value) (Product.stock (draft w)) /\
  body_after (onChange_stock parseInt value) =
    sent (Product.name (draft w)) (Product.price (draft w)) (parseInt value).
Proof.
  intros Himg Hwf. apply not_false_iff in Himg. cbv zeta.
  assert (Hp : Nat.eqb (product p) (next w) = false)
    by (apply Nat.eqb_neq; lia).
  unfold draft in *.
  repeat split.
  - destruct (handleSubmit_nonempty
                (render p (world_of (onChange_name value w)))
                (world_of (onChange_name value w))) as [o [Hrun Ho]].
    + simpl. rewrite Nat.eqb_refl. exact Himg.
    + rewrite Hrun, Ho. simpl. rewrite requests_app, Nat.eqb_refl, Hp.
      reflexivity.
  - destruct (handleSubmit_nonempty
                (render p (world_of (onChange_price parseInt value w)))
                (world_of (onChange_price parseInt value w))) as [o [Hrun Ho]].
    + simpl. rewrite Nat.eqb_refl. exact Himg.
    + rewrite Hrun, Ho. simpl. rewrite requests_app, Nat.eqb_refl, Hp.
      reflexivity.
  - destruct (handleSubmit_nonempty
                (render p (world_of (onChange_stock parseInt value w)))
                (world_of (onChange_stock parseInt value w))) as [o [Hrun Ho]].
    + simpl. rewrite Nat.eqb_refl. exact Himg.
    + rewrite Hrun, Ho. simpl. rewrite requests_app, Nat.eqb_refl, Hp.
      reflexivity.
Qed.

(** X7.  After an upload answered with a 2xx status and a body of the
    shape [{image: s}], made on the draft in use, a click on "Update
    product" is never refused for want of an image: it sends a PATCH whose
    [image] is the base host followed by [/uploads/] and [s], and where no
    base host is configured the URL sent starts with the text
    [undefined]. *)
Theorem upload_then_submit_sends_url (host : option string) (p : Props)
    (file : option File) (res : Response) (s : string) (w : World) :
  (200 <= status res < 300)%Z ->
  zod_object_image (data res) = Some s ->
  let w1 := world_of (upload_attempt host p file (Some res) w) in
  exists w2 o d,
    handleSubmit (render p w1) w1 =
      Return (Some (handleSubmit_settled (render p w1))) w2 /\
    requests (trace w2) =
      (requests (trace w) ++
       [Options.mk "POST" "/api/images" [] (Options.FormData [("image", file)]);
        o])%list /\
    Options.data o = Options.Plain d /\
    PatchData.image d =
      (match host with Some h => h | None => "undefined" end) ++ "/uploads/" ++ s.
Proof.
  intros H2xx Hshape. cbv zeta.
  assert (Hw1 : exists w1,
            world_of (upload_attempt host p file (Some res) w) = w1 /\
            Product.image (heap w1 (currentProduct (session w1))) =
              template_env host ++ "/uploads/" ++ s /\
            trace w1 =
              (trace w ++
               [AxiosRequest (Options.mk "POST" "/api/images" []
                                (Options.FormData [("image", file)]))])%list).
  { unfold upload_attempt, bind. rewrite uploadImage_start.
    unfold uploadImage_settled. rewrite (settle_2xx res H2xx).
    unfold uploadImage_then. rewrite Hshape.
    eexists. split; [reflexivity |]. simpl.
    rewrite Nat.eqb_refl. split; reflexivity. }
  destruct Hw1 as [w1 [-> [Himg Htr]]].
  destruct (handleSubmit_nonempty (render p w1) w1) as [o [Hrun Ho]].
  { simpl. rewrite Himg. apply not_app_suffix. reflexivity. }
  eexists. exists o. eexists.
  split; [exact Hrun |].
  subst o. simpl. rewrite requests_app, Htr, requests_app. simpl.
  rewrite <- app_assoc. simpl.
  split; [reflexivity |]. split; [reflexivity |].
  rewrite Himg. destruct host; reflexivity.
Qed.

(** X8.  The success continuation of an upload always writes the URL
    into the [image] cell.  When the draft has been replaced since the
    render that started the upload (something was typed in between), the
    draft in use is left exactly as it was: its image stays what it was
    before the answer. *)
Theorem stale_upload_skips_draft (host : option string) (r : Render)
    (res : Response) (s : string) (w : World) :
  zod_object_image (data res) = Some s ->
  currentProduct (state r) <> currentProduct (session w) ->
  exists w',
    uploadImage_then host r res w = Return tt w' /\
    image (session w') = template_env host ++ "/uploads/" ++ s /\
    currentProduct (session w') = currentProduct (session w) /\
    draft w' = draft w.
Proof.
  intros Hshape Hstale. unfold uploadImage_then. rewrite Hshape.
  eexists. split; [reflexivity |]. unfold draft. simpl.
  rewrite Nat.eqb_refl.
  split; [reflexivity |]. split; [reflexivity |].
  destruct (Nat.eqb (currentProduct (session w)) (currentProduct (state r))) eqn:E;
    [| reflexivity].
  apply Nat.eqb_eq in E. congruence.
Qed.

(** X9.  The draft starts as the very object passed as [product].  As long
    as nothing has been typed, a successful upload therefore overwrites
    the image of the caller's object in place, leaving its other fields as
    they were. *)
Theorem upload_overwrites_product_prop (host : option string) (p : Props)
    (res : Response) (s : string) (w : World) :
  zod_object_image (data res) = Some s ->
  currentProduct (session w) = currentProduct (mount p (heap w)) ->
  exists w',
    uploadImage_then host (render p w) res w = Return tt w' /\
    heap w' (product p) =
      Product.with_image (template_env host ++ "/uploads/" ++ s)
                         (heap w (product p)).
Proof.
  intros Hshape Hfresh. simpl in Hfresh.
  unfold uploadImage_then. rewrite Hshape.
  eexists. split; [reflexivity |]. simpl.
  rewrite Hfresh, Nat.eqb_refl. reflexivity.
Qed.

(** *** Runs of events *)

Lemma with_image_self (x : Product.t) :
  Product.with_image (Product.image x) x = x.
Proof. now destruct x. Qed.

(** What one event can do to the store and to the reference to the draft:
    nothing, or write the image of one object, or make an edited copy of
    the draft the new draft. *)
Lemma step_store (host : option string) (e : Event) (w : World) :
  let w' := step parseInt host e w in
  (heap w' = heap w /\ next w' = next w /\
   currentProduct (session w') = currentProduct (session w)) \/
  (exists c url,
     heap w' = (fun l => if Nat.eqb l c
                         then Product.with_image url (heap w c) else heap w l) /\
     next w' = next w /\
     currentProduct (session w') = currentProduct (session w)) \/
  (exists f,
     (forall x, Product.id (f x) = Product.id x /\
                Product.image (f x) = Product.image x /\
                Product.categoryId (f x) = Product.categoryId x /\
                Product.variants (f x) = Product.variants x) /\
     heap w' = (fun l => if Nat.eqb l (next w)
                         then f (draft w) else heap w l) /\
     next w' = S (next w) /\
     currentProduct (session w') = next w).
Proof.
  cbv zeta. destruct e as [p file | r s | p | r s | v | v | v | |]; unfold step.
  - left. rewrite uploadImage_start. auto.
  - destruct s as [res | err]; unfold uploadImage_settled.
    + unfold uploadImage_then.
      destruct (zod_object_image (data res)); [| now left].
      right; left. eexists. eexists. simpl. repeat split.
    + left. unfold uploadImage_catch, setFormErrorsWith.
      destruct (obind (the_response err) _); simpl; auto.
  - left.
    destruct (not_ (Product.image (heap w (currentProduct (session w))))) eqn:E.
    + rewrite (handleSubmit_empty (render p w) w E). simpl. auto.
    + destruct (handleSubmit_nonempty (render p w) w E) as [o [Hrun _]].
      rewrite Hrun. simpl. auto.
  - left. destruct s as [res | [[resp |]]]; simpl; auto.
    unfold handleSubmit_catch, bind, eval. simpl.
    destruct (status resp =? 400)%Z.
    + destruct (dot_error (data resp)); simpl; auto.
    + destruct (status resp =? 403)%Z; [| simpl; auto].
      destruct (dot_error (data resp)) as [x |]; [| simpl; auto].
      simpl. destruct (zod_string x); simpl; auto.
  - right; right. exists (Product.with_name v). simpl. repeat split.
  - right; right. exists (with_price (parseInt v)). simpl. repeat split.
  - right; right. exists (with_stock (parseInt v)). simpl. repeat split.
  - now left.
  - now left.
Qed.

(** X10.  Whatever happens to an open dialog, in whatever order (file
    choices, typing, clicks, answers arriving late or out of order,
    toasts being closed), the draft keeps the identifier, the category
    identifier and the variants it started with. *)
Theorem run_keeps_draft_identity (host : option string) (es : list Event)
    (w : World) :
  let w' := run parseInt host es w in
  Product.id (draft w') = Product.id (draft w) /\
  Product.categoryId (draft w') = Product.categoryId (draft w) /\
  Product.variants (draft w') = Product.variants (draft w).
Proof.
  cbv zeta. revert w.
  induction es as [| e es IH]; intros w; simpl; [auto |].
  destruct (IH (step parseInt host e w)) as [Hid [Hcat Hvar]].
  rewrite Hid, Hcat, Hvar. clear IH Hid Hcat Hvar.
  unfold draft.
  destruct (step_store host e w)
    as [[Hh [_ Hc]] | [[c [url [Hh [_ Hc]]]] | [f [Hf [Hh [_ Hc]]]]]];
    rewrite Hh, Hc.
  - auto.
  - destruct (Nat.eqb (currentProduct (session w)) c) eqn:E; [| auto].
    apply Nat.eqb_eq in E. subst c. simpl. auto.
  - rewrite Nat.eqb_refl. destruct (Hf (draft w)) as [H1 [_ [H2 H3]]]. auto.
Qed.

Lemma step_objects (host : option string) (e : Event) (w : World) (l : loc) :
  l < next w ->
  next w <= next (step parseInt host e w) /\
  heap (step parseInt host e w) l =
    Product.with_image (Product.image (heap (step parseInt host e w) l)) (heap w l).
Proof.
  intros Hl.
  destruct (step_store host e w)
    as [[Hh [Hn _]] | [[c [url [Hh [Hn _]]]] | [f [_ [Hh [Hn _]]]]]];
    rewrite Hh, Hn.
  - split; [lia |]. now rewrite with_image_self.
  - split; [lia |]. destruct (Nat.eqb l c) eqn:E.
    + apply Nat.eqb_eq in E. now subst c.
    + now rewrite with_image_self.
  - split; [lia |].
    assert (E : Nat.eqb l (next w) = false) by (apply Nat.eqb_neq; lia).
    rewrite E. now rewrite with_image_self.
Qed.

Lemma run_objects (host : option string) (es : list Event) (w : World) (l : loc) :
  l < next w ->
  next w <= next (run parseInt host es w) /\
  heap (run parseInt host es w) l =
    Product.with_image (Product.image (heap (run parseInt host es w) l)) (heap w l).
Proof.
  revert w. induction es as [| e es IH]; intros w Hl; simpl.
  - split; [lia |]. now rewrite with_image_self.
  - destruct (step_objects host e w l Hl) as [Hn Hh].
    destruct (IH (step parseInt host e w)) as [Hn' Hh']; [lia |].
    split; [lia |]. rewrite Hh', Hh. reflexivity.
Qed.

(** X11.  No event changes an existing product object in anything but
    its image: whatever happens to the dialog, the object passed as
    [product] (like every object of the store at that time) keeps its
    identifier, name, price, stock, category identifier and variants;
    typing works on copies. *)
Theorem run_changes_only_images (host : option string) (es : list Event)
    (w : World) (l : loc) :
  l < next w ->
  heap (run parseInt host es w) l =
    Product.with_image (Product.image (heap (run parseInt host es w) l)) (heap w l).
Proof.
  intros Hl. apply (run_objects host es w l Hl).
Qed.

Lemma step_requests (host : option string) (e : Event) (w : World)
    (p : Props) (original : Product.t) :
  clicks_under p e ->
  Product.id (heap w (product p)) = Product.id original ->
  Product.variants (heap w (product p)) = Product.variants original ->
  Forall (request_for original) (requests (trace w)) ->
  Forall (request_for original) (requests (trace (step parseInt host e w))).
Proof.
  intros Hp Hid Hvar Hall.
  destruct e as [q file | r s | q | r s | v | v | v | |]; unfold step.
  - rewrite uploadImage_start. simpl. rewrite requests_app.
    apply Forall_app. split; [exact Hall |].
    constructor; [| constructor]. unfold request_for. simpl. auto.
  - now rewrite (proj2 (settled_requests host r s w)).
  - simpl in Hp. subst q.
    destruct (not_ (Product.image (heap w (currentProduct (session w))))) eqn:E.
    + now rewrite (handleSubmit_empty (render p w) w E).
    + destruct (handleSubmit_nonempty (render p w) w E) as [o [Hrun Ho]].
      rewrite Hrun. simpl. rewrite requests_app.
      apply Forall_app. split; [exact Hall |].
      constructor; [| constructor]. subst o. unfold request_for. simpl.
      rewrite Hid, Hvar. auto.
  - now rewrite (proj1 (settled_requests host r s w)).
  - exact Hall.
  - exact Hall.
  - exact Hall.
  - exact Hall.
  - exact Hall.
Qed.

Lemma run_requests (host : option string) (p : Props) (original : Product.t)
    (es : list Event) :
  Forall (clicks_under p) es ->
  forall w,
    product p < next w ->
    Product.id (heap w (product p)) = Product.id original ->
    Product.variants (heap w (product p)) = Product.variants original ->
    Forall (request_for original) (requests (trace w)) ->
    Forall (request_for original) (requests (trace (run parseInt host es w))).
Proof.
  induction 1 as [| e es He _ IH]; intros w Hwf Hid Hvar Hall; simpl.
  - exact Hall.
  - destruct (step_objects host e w (product p) Hwf) as [Hn Hh].
    apply IH.
    + lia.
    + rewrite Hh. exact Hid.
    + rewrite Hh. exact Hvar.
    + exact (step_requests host e w p original He Hid Hvar Hall).
Qed.

(** X12.  While the dialog gets the same props, every request it ever
    makes is the upload of one file to [/api/images] or a PATCH of
    [/api/products/<id>] for the identifier of the [product] prop,
    carrying that identifier and that product's variants: no event, in
    any order, makes it address another product or another URL. *)
Theorem run_requests_for_product (host : option string) (p : Props)
    (es : list Event) (w : World) :
  product p < next w ->
  Forall (clicks_under p) es ->
  Forall (request_for (heap w (product p))) (requests (trace w)) ->
  Forall (request_for (heap w (product p)))
         (requests (trace (run parseInt host es w))).
Proof.
  intros Hwf Hclicks Hall.
  exact (run_requests host p (heap w (product p)) es Hclicks w Hwf
           eq_refl eq_refl Hall).
Qed.

(** X13.  A successful upload does not touch the field errors.  When
    "Update product" is clicked while the upload of the first image is
    under way, the click is refused with ["Image can not be empty"], and
    that error is still the image field's error after the upload has
    succeeded and given the draft its image. *)
Theorem image_error_outlives_upload (host : option string) (p : Props)
    (file : option File) (res : Response) (s : string) (w : World) :
  Product.image (draft w) = "" ->
  (200 <= status res < 300)%Z ->
  zod_object_image (data res) = Some s ->
  let r := render p w in
  let w1 := world_of (uploadImage host r file w) in
  let w2 := world_of (handleSubmit (render p w1) w1) in
  let w3 := world_of (uploadImage_settled host r (axios_settle (Some res)) w2) in
  requests (trace w3) =
    (requests (trace w) ++
     [Options.mk "POST" "/api/images" [] (Options.FormData [("image", file)])])%list /\
  Product.image (draft w3) = template_env host ++ "/uploads/" ++ s /\
  image (session w3) = template_env host ++ "/uploads/" ++ s /\
  own "image" (spread (formErrors (session w3))) =
    Some (JArray [JString "Image can not be empty"]).
Proof.
  intros Hempty H2xx Hshape. cbv zeta. unfold draft in *.
  apply not_true_iff in Hempty.
  rewrite uploadImage_start. cbn [world_of].
  rewrite handleSubmit_empty by exact Hempty. cbn [world_of].
  unfold uploadImage_settled. rewrite (settle_2xx res H2xx).
  unfold uploadImage_then. rewrite Hshape. simpl.
  rewrite Nat.eqb_refl, requests_app. repeat split.
Qed.

End Coverage.

(** ** Concrete runs *)

Lemma submit_empty_image_rejected_locally_witness :
  Product.image (heap world_kopi (currentProduct (session world_kopi))) = "" /\
  exists w',
    handleSubmit (render props_kopi world_kopi) world_kopi = Return None w' /\
    trace w' = trace world_kopi /\
    requests (trace w') = requests (trace world_kopi) /\
    own "image" (spread (formErrors (session w'))) =
      Some (JArray [JString "Image can not be empty"]) /\
    formErrors (session w') =
      JObject [ ("id", JArray [JString ""]);
                ("image", JArray [JString "Image can not be empty"]);
                ("name", JArray [JString ""]);
                ("price", JArray [JString ""]);
                ("stock", JArray [JString ""]);
                ("categoryId", JArray [JString ""]);
                ("variants", JArray [JString ""]) ].
Proof.
  split; [reflexivity |].
  apply (submit_empty_image_rejected_locally props_kopi world_kopi).
  reflexivity.
Defined.

Lemma submit_request_body_witness :
  Product.image (heap world_susu (currentProduct (session world_susu))) <> "" /\
  exists w' o d,
    handleSubmit (render props_susu world_susu) world_susu =
      Return (Some (handleSubmit_settled (render props_susu world_susu))) w' /\
    trace w' = (trace world_susu ++ [AxiosRequest o])%list /\
    Options.method o = "PATCH" /\
    Options.url o = "/api/products/p2" /\
    Options.data o = Options.Plain d /\
    PatchData.id d = "p2" /\
    PatchData.image d = "http://kasir.in/uploads/susu.png" /\
    PatchData.name d = "Kopi Susu" /\
    PatchData.price d = 15000%Z /\
    PatchData.stock d = 7%Z /\
    PatchData.categoryId d = Some "c9" /\
    PatchData.variants d = ["iced"].
Proof.
  assert (H : Product.image (heap world_susu (currentProduct (session world_susu))) <> "")
    by discriminate.
  split; [exact H |].
  exact (submit_request_body props_susu world_susu H).
Defined.

(** C2 as stated fails: a 400 answer whose body is [{name: ["too short"]}]
    has no [error] member, and the field errors become [undefined], not
    the body. *)
Lemma update_400_bare_body_counterexample :
  let w' := world_of (handleSubmit_settled (render props_susu world_rejected)
                        (axios_settle (Some rejected_bare)) world_rejected) in
  data rejected_bare = too_short /\
  formErrors (session w') = JUndefined /\
  formErrors (session w') <> data rejected_bare.
Proof.
  simpl. repeat split. discriminate.
Qed.

Lemma update_400_replaces_field_errors_witness :
  status rejected = 400%Z /\
  dot_error (data rejected) = Ok too_short /\
  own "price" (spread (formErrors (session world_rejected))) =
    Some (JArray [JString "must be positive"]) /\
  exists w',
    handleSubmit_settled (render props_susu world_rejected)
      (axios_settle (Some rejected)) world_rejected = Return tt w' /\
    formErrors (session w') = too_short /\
    own "price" (spread (formErrors (session w'))) = None.
Proof.
  split; [reflexivity |]. split; [reflexivity |]. split; [reflexivity |].
  destruct (update_400_replaces_field_errors
              (render props_susu world_rejected) world_rejected rejected too_short
              eq_refl eq_refl) as [w' [Hrun [Hfe _]]].
  exists w'. split; [exact Hrun |]. split; [exact Hfe |].
  rewrite Hfe. reflexivity.
Defined.

Lemma update_2xx_notifies_witness :
  (200 <= status updated < 300)%Z /\
  exists w',
    handleSubmit_settled (render props_susu world_susu)
      (axios_settle (Some updated)) world_susu = Return tt w' /\
    success (session w') = "Product updated successfully" /\
    open (session w') = true /\
    trace w' = [OnUpdate []] /\
    onUpdate_calls (trace w') = [[]].
Proof.
  assert (H : (200 <= status updated < 300)%Z) by (simpl; lia).
  split; [exact H |].
  exact (update_2xx_notifies (render props_susu world_susu) world_susu updated H).
Defined.

Lemma update_403_error_toast_witness :
  status forbidden = 403%Z /\
  status forbidden_coded = 403%Z /\
  (exists w',
     handleSubmit_settled (render props_susu world_susu)
       (axios_settle (Some forbidden)) world_susu = Return tt w' /\
     error (session w') = "not allowed" /\
     openErr (session w') = true /\
     formErrors (session w') = formErrors (session world_susu) /\
     trace w' = trace world_susu) /\
  world_of (handleSubmit_settled (render props_susu world_susu)
              (axios_settle (Some forbidden_coded)) world_susu) = world_susu.
Proof.
  split; [reflexivity |]. split; [reflexivity |]. split.
  - exact (proj1 (update_403_error_toast (render props_susu world_susu)
                    world_susu forbidden eq_refl)
                 "not allowed" eq_refl).
  - apply (proj2 (update_403_error_toast (render props_susu world_susu)
                    world_susu forbidden_coded eq_refl)).
    intros s. discriminate.
Defined.

Lemma update_other_failure_ignored_witness :
  (~ (200 <= status server_error < 300)%Z /\
   status server_error <> 400%Z /\ status server_error <> 403%Z) /\
  world_of (handleSubmit_settled (render props_susu world_susu)
              (axios_settle (Some server_error)) world_susu) = world_susu /\
  world_of (handleSubmit_settled (render props_susu world_susu)
              (axios_settle None) world_susu) = world_susu.
Proof.
  assert (H : ~ (200 <= status server_error < 300)%Z /\
              status server_error <> 400%Z /\ status server_error <> 403%Z)
    by (simpl; lia).
  split; [exact H |]. split.
  - exact (update_other_failure_ignored (render props_susu world_susu)
             world_susu (Some server_error) H).
  - exact (update_other_failure_ignored (render props_susu world_susu)
             world_susu None I).
Defined.

Lemma submit_errors_from_last_attempt_witness :
  Product.image (heap world_rejected (currentProduct (session world_rejected))) =
    Product.image (heap world_susu (currentProduct (session world_susu))) /\
  let w1 := world_of (submit_attempt props_susu (Some rejected) world_susu) in
  let fe := formErrors (session (world_of (submit_attempt props_susu
                                             (Some rejected_price) w1))) in
  formErrors (session w1) = too_short /\
  fe = negative_price /\
  own "name" (spread fe) = None /\
  fe = formErrors (session (world_of (submit_attempt props_susu
                                        (Some rejected_price) world_rejected))).
Proof.
  split; [reflexivity |].
  intros w1 fe.
  split; [reflexivity |]. split; [reflexivity |]. split; [reflexivity |].
  exact (proj1 (submit_errors_from_last_attempt props_susu props_susu
                  (Some rejected) (Some rejected_price)
                  world_susu world_rejected eq_refl)).
Defined.

(** C8 as stated fails: an error whose body is an object without an [error]
    member does not make the failure continuation throw; the image field's
    errors become the list holding [undefined]. *)
Lemma upload_failure_no_error_member_counterexample :
  let out := uploadImage_catch (mkAxiosError (Some server_error)) world_kopi in
  own "error" (spread (data server_error)) = None /\
  throws out = false /\
  own "image" (spread (formErrors (session (world_of out)))) =
    Some (JArray [JUndefined]).
Proof.
  simpl. repeat split.
Qed.

Lemma upload_failure_image_error_witness :
  (let out := uploadImage_catch (mkAxiosError (Some too_large)) world_kopi in
   throws out = false /\
   own "image" (spread (formErrors (session (world_of out)))) =
     Some (JArray [JString "File too large"]) /\
   own "name" (spread (formErrors (session (world_of out)))) =
     Some (JArray [JString ""])) /\
  throws (uploadImage_catch (mkAxiosError None) world_kopi) = true.
Proof.
  split.
  - destruct (upload_failure_image_error world_kopi (mkAxiosError (Some too_large)))
      as [_ H].
    destruct (H too_large (JString "File too large") eq_refl eq_refl)
      as [Hret [Himg Hrest]].
    split; [exact Hret |]. split; [exact Himg |].
    rewrite (Hrest "name"); [reflexivity | discriminate].
  - apply (proj1 (upload_failure_image_error world_kopi (mkAxiosError None))).
    now left.
Defined.

(** C3 fails on the code.  The file is chosen on the dialog just opened on
    [kopi]; the name is edited while the upload is under way, which makes a
    new object the draft; the upload then succeeds with [{image: "x.png"}].
    The continuation writes the URL into the object its closure holds, the
    one the draft was when the file was chosen: the [image] cell gets the
    URL, the draft's image stays empty, and a submit is still refused for
    want of an image. *)
Theorem upload_misses_replaced_draft :
  exists continue w1 w2 w3,
    uploadImage host_kasirin (render props_kopi world_kopi) (Some "x.png")
      world_kopi = Return continue w1 /\
    onChange_name "Kopi Tubruk" w1 = Return tt w2 /\
    continue (axios_settle (Some uploaded)) w2 = Return tt w3 /\
    zod_object_image (data uploaded) = Some "x.png" /\
    image (session w3) = "http://kasir.in/uploads/x.png" /\
    Product.image (heap w3 0) = "http://kasir.in/uploads/x.png" /\
    currentProduct (session w3) = 2 /\
    Product.name (heap w3 (currentProduct (session w3))) = "Kopi Tubruk" /\
    Product.image (heap w3 (currentProduct (session w3))) = "" /\
    formErrors (session (world_of (submit_attempt props_kopi (Some updated) w3))) =
      image_required /\
    requests (trace (world_of (submit_attempt props_kopi (Some updated) w3))) =
      requests (trace w3).
Proof.
  pose (r0 := render props_kopi world_kopi).
  pose (w1 := world_of (uploadImage host_kasirin r0 (Some "x.png") world_kopi)).
  pose (w2 := world_of (onChange_name "Kopi Tubruk" w1)).
  pose (w3 := world_of (uploadImage_settled host_kasirin r0
                          (axios_settle (Some uploaded)) w2)).
  exists (uploadImage_settled host_kasirin r0), w1, w2, w3.
  repeat split.
Qed.

Lemma uploadImage_clears_image_errors_witness :
  exists w',
    uploadImage host_kasirin (render props_susu world_rejected) (Some "y.png")
      world_rejected =
      Return (uploadImage_settled host_kasirin (render props_susu world_rejected)) w' /\
    own "image" (spread (formErrors (session w'))) = Some (JArray []) /\
    own "price" (spread (formErrors (session w'))) =
      Some (JArray [JString "must be positive"]).
Proof.
  destruct (uploadImage_clears_image_errors host_kasirin
              (render props_susu world_rejected) (Some "y.png") world_rejected)
    as [w' [Hrun [Himg [Hrest _]]]].
  exists w'. split; [exact Hrun |]. split; [exact Himg |].
  rewrite (Hrest "price"); [reflexivity | discriminate].
Defined.

Lemma submit_never_closes_toasts_witness :
  openErr (session world_rejected) = true /\
  error (session world_rejected) = "old" /\
  let w' := world_of (submit_attempt props_susu (Some updated) world_rejected) in
  openErr (session w') = true /\ error (session w') = "".
Proof.
  split; [reflexivity |]. split; [reflexivity |].
  intros w'.
  destruct (submit_never_closes_toasts props_susu (Some updated) world_rejected)
    as [_ [Herr _]].
  split; [exact (Herr eq_refl) | reflexivity].
Defined.

Lemma typed_value_is_sent_witness :
  Product.image (draft world_susu) <> "" /\
  product props_susu < next world_susu /\
  let w1 := world_of (onChange_price parse_decimal "9000" world_susu) in
  requests (trace (world_of (handleSubmit (render props_susu w1) w1))) =
    [Options.mk "PATCH" "/api/products/p2"
       [("Content-Type", "application/x-www-form-urlencoded")]
       (Options.Plain
          (PatchData.mk (schema := demo) "p2" "http://kasir.in/uploads/susu.png"
             "Kopi Susu" 9000%Z 7%Z (Some "c9") ["iced"]))].
Proof.
  assert (Himg : Product.image (draft world_susu) <> "") by discriminate.
  assert (Hwf : product props_susu < next world_susu) by (simpl; lia).
  split; [exact Himg |]. split; [exact Hwf |].
  exact (proj1 (proj2 (typed_value_is_sent parse_decimal props_susu world_susu
                         "9000" Himg Hwf))).
Defined.

Lemma upload_then_submit_sends_url_witness :
  (200 <= status uploaded < 300)%Z /\
  zod_object_image (data uploaded) = Some "x.png" /\
  Product.image (draft world_kopi) = "" /\
  let w1 := world_of (upload_attempt host_kasirin props_kopi (Some "x.png")
                        (Some uploaded) world_kopi) in
  exists w2 o d,
    handleSubmit (render props_kopi w1) w1 =
      Return (Some (handleSubmit_settled (render props_kopi w1))) w2 /\
    requests (trace w2) =
      [Options.mk "POST" "/api/images" [] (Options.FormData (schema := demo) [("image", Some "x.png")]);
       o] /\
    Options.data o = Options.Plain d /\
    PatchData.image d = "http://kasir.in/uploads/x.png".
Proof.
  assert (H2xx : (200 <= status uploaded < 300)%Z) by (simpl; lia).
  split; [exact H2xx |]. split; [reflexivity |]. split; [reflexivity |].
  exact (upload_then_submit_sends_url host_kasirin props_kopi (Some "x.png")
           uploaded "x.png" world_kopi H2xx eq_refl).
Defined.

Lemma stale_upload_skips_draft_witness :
  let r := render props_kopi world_kopi in
  let w := world_of (onChange_name "Kopi Tubruk" world_kopi) in
  zod_object_image (data uploaded) = Some "x.png" /\
  currentProduct (state r) <> currentProduct (session w) /\
  exists w',
    uploadImage_then host_kasirin r uploaded w = Return tt w' /\
    image (session w') = "http://kasir.in/uploads/x.png" /\
    currentProduct (session w') = currentProduct (session w) /\
    draft w' = draft w.
Proof.
  intros r w.
  assert (Hstale : currentProduct (state r) <> currentProduct (session w))
    by discriminate.
  split; [reflexivity |]. split; [exact Hstale |].
  exact (stale_upload_skips_draft host_kasirin r uploaded "x.png" w eq_refl Hstale).
Defined.

Lemma upload_overwrites_product_prop_witness :
  zod_object_image (data uploaded) = Some "x.png" /\
  currentProduct (session world_kopi) =
    currentProduct (mount props_kopi (heap world_kopi)) /\
  Product.image (heap world_kopi (product props_kopi)) = "" /\
  exists w',
    uploadImage_then host_kasirin (render props_kopi world_kopi) uploaded world_kopi =
      Return tt w' /\
    heap w' (product props_kopi) =
      Product.with_image "http://kasir.in/uploads/x.png" kopi.
Proof.
  split; [reflexivity |]. split; [reflexivity |]. split; [reflexivity |].
  exact (upload_overwrites_product_prop host_kasirin props_kopi uploaded "x.png"
           world_kopi eq_refl eq_refl).
Defined.

Lemma run_changes_only_images_witness :
  product props_kopi < next world_kopi /\
  let w' := run parse_decimal host_kasirin hurried world_kopi in
  heap w' (product props_kopi) =
    Product.with_image (Product.image (heap w' (product props_kopi))) kopi /\
  Product.image (heap w' (product props_kopi)) = "http://kasir.in/uploads/x.png" /\
  Product.name (draft w') = "Kopi Tubruk" /\
  Product.price (draft w') = 9000%Z.
Proof.
  assert (Hwf : product props_kopi < next world_kopi) by (simpl; lia).
  split; [exact Hwf |]. intros w'.
  split.
  - exact (run_changes_only_images parse_decimal host_kasirin hurried world_kopi
             (product props_kopi) Hwf).
  - repeat split.
Defined.

Lemma run_requests_for_product_witness :
  product props_kopi < next world_kopi /\
  Forall (clicks_under props_kopi) hurried /\
  Forall (request_for (heap world_kopi (product props_kopi)))
         (requests (trace world_kopi)) /\
  Forall (request_for kopi)
         (requests (trace (run parse_decimal host_kasirin hurried world_kopi))).
Proof.
  assert (Hwf : product props_kopi < next world_kopi) by (simpl; lia).
  assert (Hclicks : Forall (clicks_under props_kopi) hurried)
    by (repeat constructor).
  assert (Hnone : Forall (request_for (heap world_kopi (product props_kopi)))
                         (requests (trace world_kopi)))
    by constructor.
  split; [exact Hwf |]. split; [exact Hclicks |]. split; [exact Hnone |].
  exact (run_requests_for_product parse_decimal host_kasirin props_kopi hurried
           world_kopi Hwf Hclicks Hnone).
Defined.

Lemma image_error_outlives_upload_witness :
  Product.image (draft world_kopi) = "" /\
  (200 <= status uploaded < 300)%Z /\
  zod_object_image (data uploaded) = Some "x.png" /\
  let r := render props_kopi world_kopi in
  let w1 := world_of (uploadImage host_kasirin r (Some "x.png") world_kopi) in
  let w2 := world_of (handleSubmit (render props_kopi w1) w1) in
  let w3 := world_of (uploadImage_settled host_kasirin r
                        (axios_settle (Some uploaded)) w2) in
  requests (trace w3) =
    [Options.mk "POST" "/api/images" [] (Options.FormData (schema := demo) [("image", Some "x.png")])] /\
  Product.image (draft w3) = "http://kasir.in/uploads/x.png" /\
  image (session w3) = "http://kasir.in/uploads/x.png" /\
  own "image" (spread (formErrors (session w3))) =
    Some (JArray [JString "Image can not be empty"]).
Proof.
  assert (H2xx : (200 <= status uploaded < 300)%Z) by (simpl; lia).
  split; [reflexivity |]. split; [exact H2xx |]. split; [reflexivity |].
  exact (image_error_outlives_upload host_kasirin props_kopi (Some "x.png")
           uploaded "x.png" world_kopi eq_refl H2xx eq_refl).
Defined.
